(** * The article and community API of [server.js]: cache coherence,
      authorization and engagement counters

    A shallow embedding of the request handlers of [src/server.js].  The
    relational store is a record of tables, the process-local cache
    ([node-cache], one hour TTL) is a record of finite maps from key suffixes
    to entries with an expiry time, and every handler is a function from the
    request and the server state to an outcome and the next state.  Store
    failures (a lost connection, a rejected statement) are outside the model:
    the store always answers, so the [catch] branches answering 500 are not
    reachable here.

    Strings are ASCII strings: [toLowerCase], [trim] and [padStart] act on
    characters below 128 as JavaScript does.  A request path is the list of
    its decoded segments, matched against the route patterns segment by
    segment. *)

From Stdlib Require Import ZArith NArith Ascii String List Bool Lia.
From stdpp Require Import base option list strings gmap pretty.

Local Open Scope string_scope.
Local Open Scope list_scope.

(** ** JavaScript string operations used by the handlers *)

Module JS.

(** White space removed by [String.prototype.trim] (ASCII part): tab, line
    feed, vertical tab, form feed, carriage return and space. *)
Definition is_space (c : ascii) : bool :=
  let n := N_of_ascii c in
  ((9 <=? n) && (n <=? 13))%N || (n =? 32)%N.

Fixpoint trimStart (s : string) : string :=
  match s with
  | EmptyString => EmptyString
  | String c s' => if is_space c then trimStart s' else s
  end.

Fixpoint trimEnd (s : string) : string :=
  match s with
  | EmptyString => EmptyString
  | String c s' =>
      match trimEnd s' with
      | EmptyString => if is_space c then EmptyString else String c EmptyString
      | t => String c t
      end
  end.

Definition trim (s : string) : string := trimEnd (trimStart s).

Fixpoint repeat_char (c : ascii) (n : nat) : string :=
  match n with
  | O => EmptyString
  | S n' => String c (repeat_char c n')
  end.

(** [s.padStart(n, c)] for a one-character filler [c]. *)
Definition padStart (n : nat) (c : ascii) (s : string) : string :=
  repeat_char c (n - String.length s) +:+ s.

Definition is_upper (c : ascii) : bool :=
  let n := N_of_ascii c in ((65 <=? n) && (n <=? 90))%N.
Definition is_lower (c : ascii) : bool :=
  let n := N_of_ascii c in ((97 <=? n) && (n <=? 122))%N.
Definition is_digit (c : ascii) : bool :=
  let n := N_of_ascii c in ((48 <=? n) && (n <=? 57))%N.

Definition lower_char (c : ascii) : ascii :=
  if is_upper c then ascii_of_N (N_of_ascii c + 32) else c.

Fixpoint toLowerCase (s : string) : string :=
  match s with
  | EmptyString => EmptyString
  | String c s' => String (lower_char c) (toLowerCase s')
  end.

(** Truthiness of a possibly absent string, number or array: [undefined],
    [null], the empty string and [0] are falsy. *)
Definition truthy_str (o : option string) : bool :=
  match o with Some s => negb (String.eqb s "") | None => false end.
Definition truthy_N (o : option N) : bool :=
  match o with Some n => negb (n =? 0)%N | None => false end.

(** [x || d] on strings and on numbers. *)
Definition or_str (o : option string) (d : string) : string :=
  match o with Some s => if String.eqb s "" then d else s | None => d end.
Definition or_Z (o : option Z) (d : Z) : Z :=
  match o with Some z => if (z =? 0)%Z then d else z | None => d end.
(** [x || null]: a falsy string becomes SQL NULL. *)
Definition or_null (o : option string) : option string :=
  match o with Some s => if String.eqb s "" then None else Some s | None => None end.

End JS.

(** ** The relational store *)

(** The string-to-number conversion MySQL applies when an integer column is
    compared with a string parameter: leading blanks are skipped and the
    longest prefix of decimal digits is read; no digit reads as 0.  Signs,
    fractions and exponents do not occur in the identifiers the handlers pass
    and are not modelled. *)
Module Sql.

Fixpoint digits (s : string) (acc : N) : N :=
  match s with
  | String c s' =>
      if JS.is_digit c then digits s' (10 * acc + (N_of_ascii c - 48))%N else acc
  | EmptyString => acc
  end.

Fixpoint skip_blanks (s : string) : string :=
  match s with
  | String c s' =>
      if ((N_of_ascii c =? 32) || (N_of_ascii c =? 9))%N then skip_blanks s' else s
  | EmptyString => EmptyString
  end.

Definition to_number (s : string) : N := digits (skip_blanks s) 0.

(** [WHERE article_id = ?] with the parameter bound to a string. *)
Definition id_eq (column : N) (param : string) : bool :=
  (column =? to_number param)%N.

End Sql.

Module Article.
(** A row of table [articles].  NULL columns are [None]. *)
Record row := mk {
  article_id : N;
  headline_title : option string;
  short_desc : option string;
  article_content : option string;
  city : option string;
  author : option string;
  date : option string;
  category : option string;
  likes : option Z;
  ads : option string
}.

Definition set_likes (n : Z) (r : row) : row :=
  mk (article_id r) (headline_title r) (short_desc r) (article_content r)
     (city r) (author r) (date r) (category r) (Some n) (ads r).
End Article.

Module Visual.
(** A row of table [visuallist]. *)
Record row := mk {
  article_id : N;
  name : option string;
  description : option string;
  file_type : option string;
  css_class : option string;
  filepath : option string
}.
End Visual.

(** The stored credential: [bcrypt.hash(password, saltRounds)] kept symbolic,
    an opaque one-way value. *)
Inductive credential := bcrypt_hash (password : string) (saltRounds : nat).

Module User.
(** A row of table [users]. *)
Record row := mk {
  id : N;
  username : string;
  email : string;
  password : credential;
  country : string;
  firstname : string;
  lastname : string;
  role : string;
  biography : option string
}.
End User.

(** Modelled from the spec: the table declarations of [user_interests],
    [user_dislikes], [user_subscriptions] and [user_keyword_reads] are not in
    the repository.  Following the data model of the spec, each membership
    table has a unique key on its (user, topic) pair, which is what makes
    [INSERT IGNORE] skip a duplicate, and [user_keyword_reads] has a unique
    key on (user, keyword), which is what makes [ON DUPLICATE KEY UPDATE]
    accumulate. *)
Abbreviation membership := (list (N * string)).

Record store := mkStore {
  articles : list Article.row;
  articles_auto_increment : N;
  visuallist : list Visual.row;
  users : list User.row;
  users_auto_increment : N;
  user_interests : membership;
  user_dislikes : membership;
  user_subscriptions : membership;
  user_keyword_reads : gmap (N * string) N
}.

Definition with_articles (l : list Article.row) (n : N) (d : store) : store :=
  mkStore l n (visuallist d) (users d) (users_auto_increment d)
          (user_interests d) (user_dislikes d) (user_subscriptions d)
          (user_keyword_reads d).

Definition with_users (l : list User.row) (n : N) (d : store) : store :=
  mkStore (articles d) (articles_auto_increment d) (visuallist d) l n
          (user_interests d) (user_dislikes d) (user_subscriptions d)
          (user_keyword_reads d).

Definition with_user_interests (m : membership) (d : store) : store :=
  mkStore (articles d) (articles_auto_increment d) (visuallist d) (users d)
          (users_auto_increment d) m (user_dislikes d) (user_subscriptions d)
          (user_keyword_reads d).

Definition with_user_dislikes (m : membership) (d : store) : store :=
  mkStore (articles d) (articles_auto_increment d) (visuallist d) (users d)
          (users_auto_increment d) (user_interests d) m (user_subscriptions d)
          (user_keyword_reads d).

Definition with_user_subscriptions (m : membership) (d : store) : store :=
  mkStore (articles d) (articles_auto_increment d) (visuallist d) (users d)
          (users_auto_increment d) (user_interests d) (user_dislikes d) m
          (user_keyword_reads d).

Definition with_user_keyword_reads (m : gmap (N * string) N) (d : store) : store :=
  mkStore (articles d) (articles_auto_increment d) (visuallist d) (users d)
          (users_auto_increment d) (user_interests d) (user_dislikes d)
          (user_subscriptions d) m.

(** *** Statements *)

(** [SELECT * FROM articles WHERE article_id = ?] *)
Definition select_articles (param : string) (d : store) : list Article.row :=
  filter (fun r => Sql.id_eq (Article.article_id r) param = true) (articles d).

(** [SELECT * FROM visuallist WHERE article_id = ?] *)
Definition select_visuals (param : string) (d : store) : list Visual.row :=
  filter (fun r => Sql.id_eq (Visual.article_id r) param = true) (visuallist d).

(** [UPDATE articles SET ... WHERE article_id = ?]: every matching row is
    rewritten by [f]; the second component is [affectedRows], which the
    client library reports as the number of matched rows. *)
Definition update_articles (param : string) (f : Article.row -> Article.row)
    (d : store) : store * nat :=
  (with_articles
     (map (fun r => if Sql.id_eq (Article.article_id r) param then f r else r)
          (articles d))
     (articles_auto_increment d) d,
   length (select_articles param d)).

(** [DELETE FROM articles WHERE article_id = ?] *)
Definition delete_articles (param : string) (d : store) : store * nat :=
  (with_articles
     (filter (fun r => Sql.id_eq (Article.article_id r) param = false) (articles d))
     (articles_auto_increment d) d,
   length (select_articles param d)).

(** [INSERT IGNORE INTO t (user_id, topic) VALUES (?, ?)] under the unique
    key on the pair. *)
Definition insert_ignore (k : N * string) (t : membership) : membership :=
  if bool_decide (k ∈ t) then t else t ++ [k].

(** [INSERT INTO user_keyword_reads ... VALUES (?, ?, 1)
     ON DUPLICATE KEY UPDATE count = count + 1] *)
Definition upsert_read (k : N * string) (m : gmap (N * string) N) : gmap (N * string) N :=
  match m !! k with
  | Some c => <[k := (c + 1)%N]> m
  | None => <[k := 1%N]> m
  end.

(** ** The cache *)

(** [new NodeCache({ stdTTL: 3600 })]: every entry carries the time (in
    milliseconds) after which it is no longer served.  The three kinds of key
    the handlers build, ["all_articles"], [`article_${id}`] and
    [`visuals_${id}`], have distinct prefixes, so the cache is kept as one
    component per kind, indexed by the suffix. *)
Record entry (A : Type) := mkEntry { value : A; expires : Z }.
Arguments mkEntry {A} _ _.
Arguments value {A} _.
Arguments expires {A} _.

Record cache := mkCache {
  all_articles : option (entry (list Article.row));
  article_ : gmap string (entry Article.row);
  visuals_ : gmap string (entry (list Visual.row))
}.

Definition stdTTL : Z := 3600.

(** [cache.get]: an entry past its time is a miss. *)
Definition live {A} (now : Z) (e : entry A) : option A :=
  if (expires e <? now)%Z then None else Some (value e).

Definition get_all_articles (now : Z) (c : cache) : option (list Article.row) :=
  all_articles c ≫= live now.
Definition get_article_ (id : string) (now : Z) (c : cache) : option Article.row :=
  article_ c !! id ≫= live now.
Definition get_visuals_ (id : string) (now : Z) (c : cache) : option (list Visual.row) :=
  visuals_ c !! id ≫= live now.

(** [cache.set] *)
Definition fresh {A} (now : Z) (v : A) : entry A := mkEntry v (now + stdTTL * 1000)%Z.

Definition set_all_articles (now : Z) (rows : list Article.row) (c : cache) : cache :=
  mkCache (Some (fresh now rows)) (article_ c) (visuals_ c).
Definition set_article_ (id : string) (now : Z) (r : Article.row) (c : cache) : cache :=
  mkCache (all_articles c) (<[id := fresh now r]> (article_ c)) (visuals_ c).
Definition set_visuals_ (id : string) (now : Z) (rows : list Visual.row) (c : cache) : cache :=
  mkCache (all_articles c) (article_ c) (<[id := fresh now rows]> (visuals_ c)).

(** [cache.del] *)
Definition del_all_articles (c : cache) : cache :=
  mkCache None (article_ c) (visuals_ c).
Definition del_article_ (id : string) (c : cache) : cache :=
  mkCache (all_articles c) (delete id (article_ c)) (visuals_ c).
Definition del_visuals_ (id : string) (c : cache) : cache :=
  mkCache (all_articles c) (article_ c) (delete id (visuals_ c)).

(** ** Server state, requests and responses *)

Record state := mkState { db : store; memo : cache }.

(** [req.body] after [express.json()]: the fields the handlers destructure;
    [None] is an absent field. *)
Record body := mkBody {
  title : option string;
  description : option string;
  content : option string;
  city : option string;
  author : option string;
  date : option string;
  category : option string;
  likes : option Z;
  ads : option string;
  userId : option N;
  username : option string;
  email : option string;
  password : option string;
  country : option string;
  firstName : option string;
  lastName : option string;
  biography : option string;
  interest : option string;
  topic : option string;
  articleId : option string;
  keywords : option (list string);
  action : option string
}.

Inductive method := GET | POST | PUT | DELETE.

(** A request: the path is the list of its decoded segments, [now] the time
    at which the handler runs. *)
Record request := mkRequest {
  verb : method;
  path : list string;
  query_userId : option N;
  payload : body;
  now : Z
}.

(** The object [mapArticleFields] builds. *)
Record article_view := mkArticleView {
  v_id : string; v_title : string; v_description : string; v_content : string;
  v_city : string; v_author : string; v_date : string; v_category : string;
  v_likes : Z
}.

(** The objects [mapVisualFields] builds. *)
Record visual_view := mkVisualView {
  v_name : string; v_vdescription : string; v_file_type : string;
  v_css_class : string; v_filepath : string
}.

(** Response bodies, one constructor per shape passed to [res.json]. *)
Inductive json :=
| JError (error : string)
| JMessage (message : string)
| JCreated (id : N) (message : string)
| JRows (rows : list Article.row)
| JArticle (a : article_view)
| JVisuals (vs : list visual_view)
| JSuccess
| JLikes (n : Z)
| JRegistered (message : string) (uid : N) (role : string)
| JDuplicate (error : string) (usernameExists emailExists : bool).

(** What a handler does with a request: send a response, call [next()], or
    return having done neither. *)
Inductive outcome :=
| Respond (status : nat) (b : json)
| Next
| Pending.

Definition handler := string -> request -> state -> outcome * state.

(** ** Helpers of [server.js] *)

Definition mapArticleFields (row : Article.row) : article_view :=
  mkArticleView
    (JS.padStart 3 "0" (pretty (Article.article_id row)))
    (JS.or_str (Article.headline_title row) "Untitled Article")
    (JS.or_str (Article.short_desc row) "")
    (JS.or_str (Article.article_content row) "Content not available")
    (JS.or_str (Article.city row) "")
    (JS.or_str (Article.author row) "")
    (JS.or_str (Article.date row) "")
    (JS.or_str (Article.category row) "")
    (JS.or_Z (Article.likes row) 0).

Definition mapVisualFields (rows : list Visual.row) : list visual_view :=
  map (fun row =>
         mkVisualView
           (JS.or_str (Visual.name row) "No Name")
           (JS.or_str (Visual.description row) "")
           (JS.or_str (Visual.file_type row) "")
           (JS.or_str (Visual.css_class row) "")
           (JS.or_str (Visual.filepath row) ""))
      rows.

(** ** Article routes *)

(** [app.get("/api/articles")] *)
Definition get_articles : handler := fun _ req st =>
  match get_all_articles (now req) (memo st) with
  | Some cachedArticles => (Respond 200 (JRows cachedArticles), st)
  | None =>
      let rows := articles (db st) in
      (Respond 200 (JRows rows),
       mkState (db st) (set_all_articles (now req) rows (memo st)))
  end.

(** [app.get("/api/articles/:id")] *)
Definition get_article : handler := fun id req st =>
  let articleId := JS.padStart 3 "0" (JS.trim id) in
  match get_article_ articleId (now req) (memo st) with
  | Some cachedArticle => (Respond 200 (JArticle (mapArticleFields cachedArticle)), st)
  | None =>
      match select_articles articleId (db st) with
      | [] => (Respond 404 (JError "Article not found"), st)
      | article :: _ =>
          (Respond 200 (JArticle (mapArticleFields article)),
           mkState (db st) (set_article_ articleId (now req) article (memo st)))
      end
  end.

(** [app.post("/api/articles")] *)
Definition post_article : handler := fun _ req st =>
  let b := payload req in
  let insertId := articles_auto_increment (db st) in
  let row :=
    Article.mk insertId
      (Some (JS.or_str (title b) "")) (Some (JS.or_str (description b) ""))
      (Some (JS.or_str (content b) "")) (Some (JS.or_str (city b) ""))
      (Some (JS.or_str (author b) "")) (JS.or_null (date b))
      (Some (JS.or_str (category b) "")) (Some (JS.or_Z (likes b) 0)) None in
  (Respond 201 (JCreated insertId "Article created successfully"),
   mkState (with_articles (articles (db st) ++ [row]) (insertId + 1)%N (db st))
           (del_all_articles (memo st))).

(** The [SET] clause of the update in [app.put("/api/articles/:id")]. *)
Definition put_fields (b : body) (r : Article.row) : Article.row :=
  Article.mk (Article.article_id r)
    (Some (JS.or_str (title b) "")) (Some (JS.or_str (description b) ""))
    (Some (JS.or_str (content b) "")) (Some (JS.or_str (city b) ""))
    (Some (JS.or_str (author b) "")) (JS.or_null (date b))
    (Some (JS.or_str (category b) "")) (Some (JS.or_Z (likes b) 0))
    (Article.ads r).

(** [app.put("/api/articles/:id")], the first handler registered for the
    route. *)
Definition put_article : handler := fun articleId req st =>
  let (db', affectedRows) := update_articles articleId (put_fields (payload req)) (db st) in
  if Nat.eqb affectedRows 0 then
    (Respond 404 (JError "Article not found"), mkState db' (memo st))
  else
    let paddedId := JS.padStart 3 "0" articleId in
    (Respond 200 (JMessage "Article updated successfully"),
     mkState db' (del_article_ paddedId (del_all_articles (memo st)))).

(** [app.delete("/api/articles/:id")] *)
Definition delete_article : handler := fun articleId req st =>
  let (db', affectedRows) := delete_articles articleId (db st) in
  if Nat.eqb affectedRows 0 then
    (Respond 404 (JError "Article not found"), mkState db' (memo st))
  else
    let paddedId := JS.padStart 3 "0" articleId in
    (Respond 200 (JMessage "Article deleted successfully"),
     mkState db'
       (del_visuals_ paddedId (del_article_ paddedId (del_all_articles (memo st))))).

(** [SELECT role, username FROM users WHERE id = ?] *)
Definition select_user (uid : N) (d : store) : list User.row :=
  filter (fun u => User.id u = uid) (users d).

(** [app.put("/api/articles/:id")], the second handler registered for the
    route, "Article CRUD: permission checks".  Its permitted branch holds
    only placeholder comments: nothing is written and no response is sent. *)
Definition put_article_checked : handler := fun articleId req st =>
  if negb (JS.truthy_N (userId (payload req))) then
    (Respond 403 (JError "Forbidden"), st)
  else
    let uid := default 0%N (userId (payload req)) in
    match select_user uid (db st) with
    | [] => (Respond 403 (JError "Forbidden"), st)
    | user :: _ =>
        let owns :=
          match select_articles articleId (db st) with
          | article :: _ =>
              match Article.author article with
              | Some a => String.eqb a (User.username user)
              | None => false
              end
          | [] => false
          end in
        if String.eqb (User.role user) "admin"
           || (String.eqb (User.role user) "editor" && owns)
        then (Pending, st)
        else (Respond 403 (JError "No permission"), st)
    end.

(** ** Registration *)

Module Password.

Definition is_symbol (c : ascii) : bool :=
  existsb (Ascii.eqb c) ["@"; "$"; "!"; "%"; "*"; "?"; "&"]%char.

(** The character class [[A-Za-z\d@$!%*?&]]. *)
Definition allowed (c : ascii) : bool :=
  JS.is_upper c || JS.is_lower c || JS.is_digit c || is_symbol c.

(** [.] matches every character but a line terminator. *)
Definition is_line_terminator (c : ascii) : bool :=
  ((N_of_ascii c =? 10) || (N_of_ascii c =? 13))%N.

(** [(?=.*[cls])] at the start of the input: a character of the class
    follows a run of characters that [.] matches. *)
Fixpoint lookahead (cls : ascii -> bool) (s : string) : bool :=
  match s with
  | EmptyString => false
  | String c s' => cls c || (negb (is_line_terminator c) && lookahead cls s')
  end.

Fixpoint all_chars (cls : ascii -> bool) (s : string) : bool :=
  match s with
  | EmptyString => true
  | String c s' => cls c && all_chars cls s'
  end.

(** [passwordRegex.test(password)] for
    [/^(?=.*[a-z])(?=.*[A-Z])(?=.*\d)(?=.*[@$!%*?&])[A-Za-z\d@$!%*?&]{8,}$/]. *)
Definition passwordRegex (s : string) : bool :=
  lookahead JS.is_lower s && lookahead JS.is_upper s
  && lookahead JS.is_digit s && lookahead is_symbol s
  && all_chars allowed s && Nat.leb 8 (String.length s).

End Password.

Definition weak_password_message : string :=
  "Password must be at least 8 characters long and include uppercase, lowercase, a number, and a special character.".

(** [SELECT * FROM users WHERE LOWER(username) = ? OR LOWER(email) = ?] *)
Definition select_existing (uname mail : string) (d : store) : list User.row :=
  filter (fun u => String.eqb (JS.toLowerCase (User.username u)) uname
                   || String.eqb (JS.toLowerCase (User.email u)) mail = true)
         (users d).

(** The negation of
    [!username || !email || !password || !country || !firstName || !lastName]. *)
Definition all_fields_present (b : body) : bool :=
  JS.truthy_str (username b) && JS.truthy_str (email b)
  && JS.truthy_str (password b) && JS.truthy_str (country b)
  && JS.truthy_str (firstName b) && JS.truthy_str (lastName b).

(** [app.post("/api/register")] *)
Definition register : handler := fun _ req st =>
  let b := payload req in
  if negb (all_fields_present b)
  then (Respond 400 (JError "All fields are required"), st)
  else
    let uname := default "" (username b) in
    let mail := default "" (email b) in
    let pw := default "" (password b) in
    if negb (Password.passwordRegex pw) then
      (Respond 400 (JError weak_password_message), st)
    else
      let existingUsers :=
        select_existing (JS.toLowerCase uname) (JS.toLowerCase mail) (db st) in
      if Nat.ltb 0 (length existingUsers) then
        let usernameExists :=
          existsb (fun u => String.eqb (JS.toLowerCase (User.username u))
                                       (JS.toLowerCase uname)) existingUsers in
        let emailExists :=
          existsb (fun u => String.eqb (JS.toLowerCase (User.email u))
                                       (JS.toLowerCase mail)) existingUsers in
        (Respond 400
           (JDuplicate (if usernameExists then "Username already exists"
                        else "Email already exists")
                       usernameExists emailExists), st)
      else
        let assignedRole :=
          if Nat.eqb (length (users (db st))) 0 then "admin" else "user" in
        let saltRounds := 12 in
        let hashedPassword := bcrypt_hash pw saltRounds in
        let insertId := users_auto_increment (db st) in
        let row :=
          User.mk insertId uname (JS.toLowerCase mail) hashedPassword
            (default "" (country b)) (default "" (firstName b))
            (default "" (lastName b)) assignedRole (JS.or_null (biography b)) in
        (Respond 201 (JRegistered "User registered successfully" insertId assignedRole),
         mkState (with_users (users (db st) ++ [row]) (insertId + 1)%N (db st))
                 (memo st)).

(** ** Media *)

(** [app.get("/api/media/:id")] *)
Definition get_media : handler := fun id req st =>
  let articleId := JS.trim id in
  if String.eqb articleId "" then
    (Respond 400 (JError "Missing article ID"), st)
  else
    match get_visuals_ articleId (now req) (memo st) with
    | Some visuals => (Respond 200 (JVisuals (mapVisualFields visuals)), st)
    | None =>
        let rows := select_visuals articleId (db st) in
        (Respond 200 (JVisuals (mapVisualFields rows)),
         mkState (db st) (set_visuals_ articleId (now req) rows (memo st)))
    end.

(** ** Preferences *)

(** [app.post('/api/user/interests')] *)
Definition post_interests : handler := fun _ req st =>
  let b := payload req in
  if negb (JS.truthy_N (userId b)) || negb (JS.truthy_str (interest b)) then
    (Respond 400 (JError "Missing input"), st)
  else
    let k := (default 0%N (userId b), default "" (interest b)) in
    (Respond 200 JSuccess,
     mkState (with_user_interests (insert_ignore k (user_interests (db st))) (db st))
             (memo st)).

(** [app.post('/api/user/dislikes')] *)
Definition post_dislikes : handler := fun _ req st =>
  let b := payload req in
  if negb (JS.truthy_N (userId b)) || negb (JS.truthy_str (topic b)) then
    (Respond 400 (JError "Missing input"), st)
  else
    let k := (default 0%N (userId b), default "" (topic b)) in
    (Respond 200 JSuccess,
     mkState (with_user_dislikes (insert_ignore k (user_dislikes (db st))) (db st))
             (memo st)).

(** [app.post('/api/user/subscriptions')] *)
Definition post_subscriptions : handler := fun _ req st =>
  let b := payload req in
  if negb (JS.truthy_N (userId b)) || negb (JS.truthy_str (topic b)) then
    (Respond 400 (JError "Missing input"), st)
  else
    let k := (default 0%N (userId b), default "" (topic b)) in
    (Respond 200 JSuccess,
     mkState (with_user_subscriptions
                (insert_ignore k (user_subscriptions (db st))) (db st))
             (memo st)).

(** ** Engagement counter *)

(** One turn of the loop of [app.post('/api/user/read-article')]: the upsert,
    the re-read of the counter and the promotion when it reads 3. *)
Definition read_keyword (uid : N) (keyword : string) (d : store) : store :=
  let d1 := with_user_keyword_reads
              (upsert_read (uid, keyword) (user_keyword_reads d)) d in
  match user_keyword_reads d1 !! (uid, keyword) with
  | Some count =>
      if (count =? 3)%N then
        with_user_interests (insert_ignore (uid, keyword) (user_interests d1)) d1
      else d1
  | None => d1
  end.

(** [for (const keyword of keywords) { ... }] *)
Definition read_keywords (uid : N) (ks : list string) (d : store) : store :=
  fold_left (fun d keyword => read_keyword uid keyword d) ks d.

(** [app.post('/api/user/read-article')] *)
Definition read_article : handler := fun _ req st =>
  let b := payload req in
  match keywords b with
  | Some ks =>
      if negb (JS.truthy_N (userId b)) || negb (JS.truthy_str (articleId b)) then
        (Respond 400 (JError "Missing input"), st)
      else
        (Respond 200 JSuccess,
         mkState (read_keywords (default 0%N (userId b)) ks (db st)) (memo st))
  | None => (Respond 400 (JError "Missing input"), st)
  end.

(** ** Likes *)

(** [parseInt(rows[0].likes, 10) || 0] on an integer column. *)
Definition parse_likes (l : option Z) : Z := JS.or_Z l 0.

(** [app.post("/api/articles/:id/like")] *)
Definition post_like : handler := fun id req st =>
  let articleId := JS.padStart 3 "0" (JS.trim id) in
  let known :=
    match action (payload req) with
    | Some a => String.eqb a "like" || String.eqb a "unlike"
    | None => false
    end in
  if String.eqb articleId "" || negb known then
    (Respond 400 (JError "Invalid request"), st)
  else
    match select_articles articleId (db st) with
    | [] => (Respond 404 (JError "Article not found"), st)
    | row :: _ =>
        let likes0 := parse_likes (Article.likes row) in
        let likes1 :=
          let a := default "" (action (payload req)) in
          if String.eqb a "like" then (likes0 + 1)%Z
          else if String.eqb a "unlike" && (0 <? likes0)%Z then (likes0 - 1)%Z
          else likes0 in
        let db' := fst (update_articles articleId (Article.set_likes likes1) (db st)) in
        (Respond 200 (JLikes likes1),
         mkState db' (del_article_ articleId (del_all_articles (memo st))))
    end.

(** ** Administration *)

(** [requireAdmin]: the acting user comes from the body or the query. *)
Definition requireAdmin : handler := fun _ req st =>
  let uid :=
    if JS.truthy_N (userId (payload req)) then userId (payload req)
    else query_userId req in
  if negb (JS.truthy_N uid) then (Respond 403 (JError "Forbidden"), st)
  else
    match select_user (default 0%N uid) (db st) with
    | u :: _ =>
        if String.eqb (User.role u) "admin" then (Next, st)
        else (Respond 403 (JError "Admin only"), st)
    | [] => (Respond 403 (JError "Admin only"), st)
    end.

(** The [SET] clause of [app.put('/api/admin/articles/:id')]. *)
Definition admin_put_fields (b : body) (r : Article.row) : Article.row :=
  Article.mk (Article.article_id r)
    (title b) (Some (JS.or_str (description b) ""))
    (content b) (Some (JS.or_str (city b) ""))
    (Some (JS.or_str (author b) "")) (JS.or_null (date b))
    (Some (JS.or_str (category b) "")) (Some (JS.or_Z (likes b) 0))
    (JS.or_null (ads b)).

(** [app.put('/api/admin/articles/:id')], after [requireAdmin]. *)
Definition admin_put_article : handler := fun articleId req st =>
  let b := payload req in
  if negb (JS.truthy_str (title b)) || negb (JS.truthy_str (content b)) then
    (Respond 400 (JError "Title and content are required"), st)
  else
    let (db', affectedRows) := update_articles articleId (admin_put_fields b) (db st) in
    if Nat.eqb affectedRows 0 then
      (Respond 404 (JError "Article not found"), mkState db' (memo st))
    else
      (Respond 200 (JMessage "Article updated successfully"), mkState db' (memo st)).

(** [app.delete('/api/admin/articles/:id')], after [requireAdmin]. *)
Definition admin_delete_article : handler := fun articleId req st =>
  let (db', affectedRows) := delete_articles articleId (db st) in
  if Nat.eqb affectedRows 0 then
    (Respond 404 (JError "Article not found"), mkState db' (memo st))
  else
    (Respond 200 (JMessage "Article deleted successfully"), mkState db' (memo st)).

(** ** Routing *)

(** A path pattern: literal segments and the [:id] parameter, which matches
    one non-empty segment. *)
Inductive segment := Lit (s : string) | Param.

Record route := mkRoute {
  r_verb : method;
  r_pattern : list segment;
  r_stack : list handler
}.

Definition method_eqb (a b : method) : bool :=
  match a, b with
  | GET, GET | POST, POST | PUT, PUT | DELETE, DELETE => true
  | _, _ => false
  end.

Fixpoint match_path (p : list segment) (segs : list string) (param : string)
    : option string :=
  match p, segs with
  | [], [] => Some param
  | Lit s :: p', x :: segs' =>
      if String.eqb s x then match_path p' segs' param else None
  | Param :: p', x :: segs' =>
      if String.eqb x "" then None else match_path p' segs' x
  | _, _ => None
  end.

(** The handlers of one route run in order; each runs only when the one
    before it called [next()]. *)
Fixpoint run_stack (hs : list handler) (id : string) (req : request) (st : state)
    : outcome * state :=
  match hs with
  | [] => (Next, st)
  | h :: hs' =>
      match h id req st with
      | (Next, st') => run_stack hs' id req st'
      | done => done
      end
  end.

(** Express tries the routes in the order of their registration; a later
    route is reached only when every matching one before it called
    [next()].  A request no route answers is left to the framework's final
    handler ([Next]). *)
Fixpoint dispatch (rs : list route) (req : request) (st : state) : outcome * state :=
  match rs with
  | [] => (Next, st)
  | r :: rs' =>
      if method_eqb (r_verb r) (verb req) then
        match match_path (r_pattern r) (path req) "" with
        | Some id =>
            match run_stack (r_stack r) id req st with
            | (Next, st') => dispatch rs' req st'
            | done => done
            end
        | None => dispatch rs' req st
        end
      else dispatch rs' req st
  end.

(** The routes of [server.js] in the order of the [app.get], [app.post],
    [app.put] and [app.delete] calls. *)
Definition routes : list route :=
  [ mkRoute GET [Lit "api"; Lit "articles"] [get_articles];
    mkRoute GET [Lit "api"; Lit "articles"; Param] [get_article];
    mkRoute POST [Lit "api"; Lit "articles"] [post_article];
    mkRoute PUT [Lit "api"; Lit "articles"; Param] [put_article];
    mkRoute DELETE [Lit "api"; Lit "articles"; Param] [delete_article];
    mkRoute POST [Lit "api"; Lit "register"] [register];
    mkRoute PUT [Lit "api"; Lit "articles"; Param] [put_article_checked];
    mkRoute PUT [Lit "api"; Lit "admin"; Lit "articles"; Param]
            [requireAdmin; admin_put_article];
    mkRoute DELETE [Lit "api"; Lit "admin"; Lit "articles"; Param]
            [requireAdmin; admin_delete_article];
    mkRoute GET [Lit "api"; Lit "media"; Param] [get_media];
    mkRoute POST [Lit "api"; Lit "user"; Lit "interests"] [post_interests];
    mkRoute POST [Lit "api"; Lit "user"; Lit "dislikes"] [post_dislikes];
    mkRoute POST [Lit "api"; Lit "user"; Lit "subscriptions"] [post_subscriptions];
    mkRoute POST [Lit "api"; Lit "user"; Lit "read-article"] [read_article];
    mkRoute POST [Lit "api"; Lit "articles"; Param; Lit "like"] [post_like] ].

Definition server (req : request) (st : state) : outcome * state :=
  dispatch routes req st.

(** *** Requests by route *)

Definition no_body : body :=
  mkBody None None None None None None None None None None None None None None
         None None None None None None None None.

Definition GET_articles (t : Z) : request :=
  mkRequest GET ["api"; "articles"] None no_body t.
Definition GET_article (id : string) (t : Z) : request :=
  mkRequest GET ["api"; "articles"; id] None no_body t.
Definition PUT_article (id : string) (b : body) (t : Z) : request :=
  mkRequest PUT ["api"; "articles"; id] None b t.
Definition DELETE_article (id : string) (b : body) (t : Z) : request :=
  mkRequest DELETE ["api"; "articles"; id] None b t.
Definition PUT_admin_article (id : string) (q : option N) (b : body) (t : Z) : request :=
  mkRequest PUT ["api"; "admin"; "articles"; id] q b t.
Definition DELETE_admin_article (id : string) (q : option N) (b : body) (t : Z) : request :=
  mkRequest DELETE ["api"; "admin"; "articles"; id] q b t.
Definition GET_media (id : string) (t : Z) : request :=
  mkRequest GET ["api"; "media"; id] None no_body t.
Definition POST_register (b : body) (t : Z) : request :=
  mkRequest POST ["api"; "register"] None b t.
Definition POST_interests (b : body) (t : Z) : request :=
  mkRequest POST ["api"; "user"; "interests"] None b t.
Definition POST_dislikes (b : body) (t : Z) : request :=
  mkRequest POST ["api"; "user"; "dislikes"] None b t.
Definition POST_subscriptions (b : body) (t : Z) : request :=
  mkRequest POST ["api"; "user"; "subscriptions"] None b t.
Definition POST_read_article (b : body) (t : Z) : request :=
  mkRequest POST ["api"; "user"; "read-article"] None b t.
Definition POST_like (id : string) (b : body) (t : Z) : request :=
  mkRequest POST ["api"; "articles"; id; "like"] None b t.

(** ** Server start-up *)

(** [prefetchArticles]: the aggregate key and one key per article. *)
Definition prefetchArticles (t : Z) (st : state) : state :=
  let rows := articles (db st) in
  mkState (db st)
    (fold_left
       (fun c article =>
          set_article_ (JS.padStart 3 "0" (pretty (Article.article_id article)))
                       t article c)
       rows (set_all_articles t rows (memo st))).

Definition empty_cache : cache := mkCache None ∅ ∅.

(** ** Vocabulary of the properties and example data *)

(** A handler that always sends a response. *)
Definition responds (h : handler) : Prop :=
  forall id req st, exists status b, fst (h id req st) = Respond status b.

(** A small store: one article written by the editor bob, and a second
    account, mallory, with the plain [user] role. *)
Definition article1 : Article.row :=
  Article.mk 1 (Some "Old title") (Some "summary") (Some "text") (Some "Paris")
    (Some "bob") (Some "2024-01-01") (Some "news") (Some 0%Z) None.

Definition bob : User.row :=
  User.mk 1 "bob" "bob@x.com" (bcrypt_hash "Secret1!" 12) "FR" "Bob" "B"
    "editor" None.

Definition mallory : User.row :=
  User.mk 2 "mallory" "m@x.com" (bcrypt_hash "Secret2!" 12) "FR" "Mal" "M"
    "user" None.

Definition db1 : store := mkStore [article1] 2 [] [bob; mallory] 3 [] [] [] ∅.

(** The store before any row is inserted. *)
Definition empty_db : store := mkStore [] 1 [] [] 1 [] [] [] ∅.

(** The body [{title: s}]. *)
Definition with_title (s : string) : body :=
  mkBody (Some s) None None None None None None None None None None None None
         None None None None None None None None None.

(** The rule the permission-checked handler implements, for reference:
    admins, and editors on their own articles. *)
Definition may_update (u : User.row) (a : option Article.row) : bool :=
  String.eqb (User.role u) "admin"
  || (String.eqb (User.role u) "editor"
      && match a with
         | Some r => match Article.author r with
                     | Some x => String.eqb x (User.username u)
                     | None => false
                     end
         | None => false
         end).

(** What [GET /api/articles/:id] answers from the store alone. *)
Definition article_from_store (id : string) (d : store) : outcome :=
  match select_articles (JS.padStart 3 "0" (JS.trim id)) d with
  | [] => Respond 404 (JError "Article not found")
  | article :: _ => Respond 200 (JArticle (mapArticleFields article))
  end.

(** The parameter of the path [/api/articles/%201] once decoded. *)
Definition percent20_1 : string := " 1".

(** The bodies [{userId, interest}] and [{userId, topic}]. *)
Definition interest_body (u : N) (s : string) : body :=
  mkBody None None None None None None None None None (Some u) None None None
         None None None None (Some s) None None None None.

Definition topic_body (u : N) (s : string) : body :=
  mkBody None None None None None None None None None (Some u) None None None
         None None None None None (Some s) None None None.

(** The number of rows of a membership table that hold a given pair. *)
Definition occurrences (k : N * string) (t : membership) : nat :=
  length (filter (fun x => x = k) t).

(** The count recorded for a (user, keyword) pair, 0 when there is no row. *)
Definition counter (k : N * string) (d : store) : N :=
  default 0%N (user_keyword_reads d !! k).

(** How often a keyword occurs in the [keywords] array of an event. *)
Definition times (k : string) (ks : list string) : nat :=
  length (filter (fun x => x = k) ks).

(** The body [{userId, articleId, keywords}]. *)
Definition read_body (u : N) (aid : string) (ks : list string) : body :=
  mkBody None None None None None None None None None (Some u) None None None
         None None None None None None (Some aid) (Some ks) None.

(** Whether a run of [n] increments starting after count [c] reads exactly 3
    at some point. *)
Definition reaches_three (c : N) (n : nat) : bool :=
  ((c <? 3) && (3 <=? c + N.of_nat n))%N.

(** The invariant: every stored like count is non-negative (a NULL count
    reads as 0). *)
Definition likes_nonneg (d : store) : Prop :=
  forall r, r ∈ articles d -> (0 <= parse_likes (Article.likes r))%Z.

(** The body [{action}]. *)
Definition action_body (a : string) : body :=
  mkBody None None None None None None None None None None None None None
         None None None None None None None None (Some a).

(** The server state after a sequence of requests. *)
Definition run (reqs : list request) (st : state) : state :=
  fold_left (fun s r => snd (server r s)) reqs st.

(** A request to [POST /api/articles/:id/like], whatever its body. *)
Definition is_like_request (r : request) : Prop :=
  exists id, verb r = POST /\ path r = ["api"; "articles"; id; "like"].

(** The characters of a string. *)
Fixpoint chars (s : string) : list ascii :=
  match s with
  | EmptyString => []
  | String c s' => c :: chars s'
  end.

(** A registration body with every required field present. *)
Definition registration (uname mail pw : string) : body :=
  mkBody None None None None None None None None None None (Some uname)
         (Some mail) (Some pw) (Some "FR") (Some "First") (Some "Last") None
         None None None None None.

(** A stored user collides with a requested name, or address, when the two
    are equal after lower-casing. *)
Definition same_username (uname : string) (u : User.row) : Prop :=
  JS.toLowerCase (User.username u) = JS.toLowerCase uname.
Definition same_email (mail : string) (u : User.row) : Prop :=
  JS.toLowerCase (User.email u) = JS.toLowerCase mail.

(** * Properties *)

(** ** Every modelled handler but [requireAdmin] and the permission-checked
       update answers the request itself *)

Ltac responds_by_cases :=
  intros id req st;
  repeat match goal with
         | |- context [match ?x with _ => _ end] => destruct x eqn:?; simpl
         | |- context [let (_, _) := ?x in _] => destruct x eqn:?; simpl
         end;
  eauto.

Lemma get_articles_responds : responds get_articles.
Proof. unfold responds, get_articles. responds_by_cases. Qed.

Lemma get_article_responds : responds get_article.
Proof. unfold responds, get_article. responds_by_cases. Qed.

Lemma put_article_responds : responds put_article.
Proof. unfold responds, put_article. responds_by_cases. Qed.

Lemma delete_article_responds : responds delete_article.
Proof. unfold responds, delete_article. responds_by_cases. Qed.

Lemma get_media_responds : responds get_media.
Proof. unfold responds, get_media. responds_by_cases. Qed.

(** A route whose single handler always answers decides the request. *)
Lemma run_single (h : handler) id req st :
  responds h -> run_stack [h] id req st = h id req st.
Proof.
  intros Hr. cbn [run_stack]. destruct (Hr id req st) as (s & b & E).
  destruct (h id req st) as [o st']; simpl in E; subst o; reflexivity.
Qed.

Ltac route_to Hr :=
  intros Hid; unfold server, routes;
  cbn [dispatch r_verb verb method_eqb r_pattern path match_path r_stack
       String.eqb Ascii.eqb Bool.eqb GET_articles GET_article PUT_article
       DELETE_article GET_media];
  match goal with
  | |- context [String.eqb ?id ""] =>
      destruct id as [|c0 id0]; [congruence|]; cbn [String.eqb]
  | _ => idtac
  end;
  rewrite (run_single _ _ _ _ Hr);
  match goal with
  | |- context [?h ?i ?r ?s] =>
      match type of h with handler => idtac end;
      destruct (Hr i r s) as (st0 & b0 & E);
      destruct (h i r s) as [o st']; simpl in E; subst o; reflexivity
  end.

Lemma server_GET_article id t st :
  id <> "" -> server (GET_article id t) st = get_article id (GET_article id t) st.
Proof. route_to get_article_responds. Qed.

Lemma server_PUT_article id b t st :
  id <> "" -> server (PUT_article id b t) st = put_article id (PUT_article id b t) st.
Proof. route_to put_article_responds. Qed.

Lemma server_DELETE_article id b t st :
  id <> "" ->
  server (DELETE_article id b t) st = delete_article id (DELETE_article id b t) st.
Proof. route_to delete_article_responds. Qed.

Lemma server_GET_media id t st :
  id <> "" -> server (GET_media id t) st = get_media id (GET_media id t) st.
Proof. route_to get_media_responds. Qed.

Lemma server_GET_articles t st :
  server (GET_articles t) st = get_articles "" (GET_articles t) st.
Proof.
  unfold server, routes.
  cbn [dispatch r_verb verb method_eqb r_pattern path match_path r_stack
       String.eqb Ascii.eqb Bool.eqb GET_articles].
  rewrite (run_single _ _ _ _ get_articles_responds).
  destruct (get_articles_responds "" (GET_articles t) st) as (s & b & E).
  destruct (get_articles _ _ _) as [o st']; simpl in E; subst o; reflexivity.
Qed.

(** ** Statements that match no row *)

Lemma with_articles_same d :
  with_articles (articles d) (articles_auto_increment d) d = d.
Proof. destruct d; reflexivity. Qed.

Lemma select_articles_nil_iff p d :
  select_articles p d = [] <->
  forall r, r ∈ articles d -> Sql.id_eq (Article.article_id r) p = false.
Proof.
  unfold select_articles. induction (articles d) as [|r l IH].
  - split; [intros _ r Hr; inversion Hr | reflexivity].
  - rewrite filter_cons. destruct (decide _) as [E|E].
    + split; [discriminate|]. intros H. rewrite (H r) in E; [discriminate|left].
    + rewrite IH. split.
      * intros H r' Hr'. apply elem_of_cons in Hr' as [->|Hr']; [|auto].
        destruct (Sql.id_eq _ _); congruence.
      * intros H r' Hr'. apply H. now right.
Qed.

Lemma update_articles_none p f d :
  snd (update_articles p f d) = 0 -> update_articles p f d = (d, 0).
Proof.
  cbn [update_articles snd]. intros Hlen.
  apply length_zero_iff_nil in Hlen.
  assert (Hmap : map (fun r => if Sql.id_eq (Article.article_id r) p then f r else r)
                     (articles d) = articles d).
  { rewrite select_articles_nil_iff in Hlen. revert Hlen.
    generalize (articles d) as l. induction l as [|r l IH]; intros Hl; [reflexivity|].
    cbn [map]. rewrite (Hl r) by left. f_equal. apply IH.
    intros r' Hr'. apply Hl. now right. }
  unfold update_articles. rewrite Hlen, Hmap, with_articles_same. reflexivity.
Qed.

Lemma delete_articles_none p d :
  snd (delete_articles p d) = 0 -> delete_articles p d = (d, 0).
Proof.
  cbn [delete_articles snd]. intros Hlen.
  apply length_zero_iff_nil in Hlen.
  assert (Hfil : filter (fun r => Sql.id_eq (Article.article_id r) p = false)
                        (articles d) = articles d).
  { rewrite select_articles_nil_iff in Hlen. revert Hlen.
    generalize (articles d) as l. induction l as [|r l IH]; intros Hl; [reflexivity|].
    rewrite filter_cons. rewrite decide_True by (apply Hl; left).
    f_equal. apply IH. intros r' Hr'. apply Hl. now right. }
  unfold delete_articles. rewrite Hlen, Hfil, with_articles_same. reflexivity.
Qed.

Lemma state_eta st : mkState (db st) (memo st) = st.
Proof. destruct st; reflexivity. Qed.

(** After a delete no remaining row answers to the identifier. *)
Lemma delete_articles_gone p d r :
  r ∈ articles (fst (delete_articles p d)) ->
  Sql.id_eq (Article.article_id r) p = false.
Proof.
  unfold delete_articles. cbn [fst with_articles articles].
  intros H. apply list_elem_of_filter in H. tauto.
Qed.

(** ** C4: an update or delete that matches no row *)

(** C4. When the store reports zero affected rows, [PUT /api/articles/:id]
    and [DELETE /api/articles/:id] answer 404 and leave the server state as
    it was: no cache entry is deleted, whether [all_articles],
    [article_<id>] or [visuals_<id>]. *)
Theorem zero_rows_is_not_found id b t st :
  id <> "" ->
  (snd (update_articles id (put_fields b) (db st)) = 0 ->
   fst (server (PUT_article id b t) st) = Respond 404 (JError "Article not found")
   /\ memo (snd (server (PUT_article id b t) st)) = memo st
   /\ snd (server (PUT_article id b t) st) = st)
  /\
  (snd (delete_articles id (db st)) = 0 ->
   fst (server (DELETE_article id b t) st) = Respond 404 (JError "Article not found")
   /\ memo (snd (server (DELETE_article id b t) st)) = memo st
   /\ snd (server (DELETE_article id b t) st) = st).
Proof.
  intros Hid. split; intros H0.
  - rewrite server_PUT_article by assumption. unfold put_article.
    cbn [payload PUT_article]. rewrite (update_articles_none _ _ _ H0).
    cbn [Nat.eqb fst snd memo]. rewrite state_eta. auto.
  - rewrite server_DELETE_article by assumption. unfold delete_article.
    rewrite (delete_articles_none _ _ H0).
    cbn [Nat.eqb fst snd memo]. rewrite state_eta. auto.
Qed.

Lemma zero_rows_is_not_found_witness :
  let st := prefetchArticles 0 (mkState db1 empty_cache) in
  (fst (server (PUT_article "7" (with_title "x") 5) st)
     = Respond 404 (JError "Article not found")
   /\ memo (snd (server (PUT_article "7" (with_title "x") 5) st)) = memo st
   /\ snd (server (PUT_article "7" (with_title "x") 5) st) = st)
  /\
  (fst (server (DELETE_article "7" no_body 5) st)
     = Respond 404 (JError "Article not found")
   /\ memo (snd (server (DELETE_article "7" no_body 5) st)) = memo st
   /\ snd (server (DELETE_article "7" no_body 5) st) = st).
Proof.
  intros st. split.
  - apply (zero_rows_is_not_found "7" (with_title "x") 5 st); [discriminate|reflexivity].
  - apply (zero_rows_is_not_found "7" no_body 5 st); [discriminate|reflexivity].
Defined.

(** The administrative update and delete never touch the cache. *)
Lemma admin_routes_keep_cache id req st :
  memo (snd (admin_put_article id req st)) = memo st
  /\ memo (snd (admin_delete_article id req st)) = memo st.
Proof.
  unfold admin_put_article, admin_delete_article. split.
  - destruct (_ || _); [reflexivity|].
    destruct (update_articles _ _ _) as [d n]. destruct (Nat.eqb n 0); reflexivity.
  - destruct (delete_articles _ _) as [d n]. destruct (Nat.eqb n 0); reflexivity.
Qed.

(** ** C1: who may update an article *)

(** The permission-checked handler refuses every caller the rule excludes. *)
Lemma put_article_checked_refuses id req st :
  (forall u, userId (payload req) = Some (User.id u) -> u ∈ users (db st) ->
             may_update u (head (select_articles id (db st))) = false) ->
  exists e, put_article_checked id req st = (Respond 403 (JError e), st).
Proof.
  intros Hno. unfold put_article_checked.
  destruct (JS.truthy_N (userId (payload req))) eqn:Ht; cbn [negb]; [|eauto].
  destruct (userId (payload req)) as [uid|] eqn:Hu; [|discriminate].
  change (default 0%N (Some uid)) with uid. destruct (select_user uid (db st)) as [|u us] eqn:Hs; [eauto|].
  assert (Hin : u ∈ select_user uid (db st)) by (rewrite Hs; left).
  apply list_elem_of_filter in Hin as [Hid Hin].
  specialize (Hno u). rewrite Hid in Hno. specialize (Hno eq_refl Hin).
  unfold may_update in Hno.
  destruct (select_articles id (db st)) as [|a l]; cbn [head] in Hno;
    rewrite Hno; eauto.
Qed.

(** The route is decided by the handler registered first, which never looks
    at the acting user: the permission-checked handler is not reached. *)
Lemma put_route_is_unchecked id b t st :
  id <> "" ->
  server (PUT_article id b t) st = put_article id (PUT_article id b t) st.
Proof. apply server_PUT_article. Qed.

(** C1. The server on an update that carries no acting user: the request
    [PUT /api/articles/1] with body [{title: "Defaced"}] is answered 200 and
    the row of article 1, written by bob, is overwritten.  The same happens
    for the acting user mallory, whose role is [user]. *)
Theorem update_without_permission_is_applied :
  let st := mkState db1 empty_cache in
  let anonymous := PUT_article "1" (with_title "Defaced") 0 in
  let by_mallory :=
    PUT_article "1"
      (mkBody (Some "Defaced") None None None None None None None None
              (Some 2%N) None None None None None None None None None None
              None None) 0 in
  fst (server anonymous st) = Respond 200 (JMessage "Article updated successfully")
  /\ map Article.headline_title (articles (db (snd (server anonymous st))))
     = [Some "Defaced"]
  /\ fst (server by_mallory st) = Respond 200 (JMessage "Article updated successfully")
  /\ map Article.headline_title (articles (db (snd (server by_mallory st))))
     = [Some "Defaced"]
  /\ (exists e, put_article_checked "1" anonymous st = (Respond 403 (JError e), st))
  /\ (exists e, put_article_checked "1" by_mallory st = (Respond 403 (JError e), st)).
Proof.
  cbv zeta. repeat split; try reflexivity; eexists; reflexivity.
Qed.

(** ** C3: reads after an update or a delete *)

Lemma get_article_miss id t st :
  get_article_ (JS.padStart 3 "0" (JS.trim id)) t (memo st) = None ->
  fst (get_article id (GET_article id t) st) = article_from_store id (db st).
Proof.
  intros Hmiss. unfold get_article, article_from_store. cbn [now GET_article].
  rewrite Hmiss. destruct (select_articles _ _); reflexivity.
Qed.

Lemma get_article_del id t c :
  get_article_ id t (del_article_ id c) = None.
Proof.
  unfold get_article_, del_article_. cbn [article_].
  rewrite lookup_delete_eq. reflexivity.
Qed.

Lemma get_article_del_visuals id id' t c :
  get_article_ id t (del_visuals_ id' c) = get_article_ id t c.
Proof. reflexivity. Qed.

(** For an identifier without surrounding white space, the read that follows
    a successful update or delete is answered from the store. *)
Lemma read_after_write_is_fresh id b t t' st :
  id <> "" -> JS.trim id = id ->
  (snd (update_articles id (put_fields b) (db st)) <> 0 ->
   let st1 := snd (server (PUT_article id b t) st) in
   fst (server (GET_article id t') st1) = article_from_store id (db st1))
  /\
  (snd (delete_articles id (db st)) <> 0 ->
   let st1 := snd (server (DELETE_article id b t) st) in
   fst (server (GET_article id t') st1) = article_from_store id (db st1)).
Proof.
  intros Hid Htrim. split; intros Hn st1; subst st1;
    rewrite server_GET_article by assumption; apply get_article_miss;
    rewrite Htrim.
  - rewrite server_PUT_article by assumption. unfold put_article.
    destruct (update_articles _ _ _) as [d n]. cbn [snd] in Hn.
    apply Nat.eqb_neq in Hn. rewrite Hn. cbn [snd memo].
    apply get_article_del.
  - rewrite server_DELETE_article by assumption. unfold delete_article.
    destruct (delete_articles _ _) as [d n]. cbn [snd] in Hn.
    apply Nat.eqb_neq in Hn. rewrite Hn. cbn [snd memo].
    rewrite get_article_del_visuals. apply get_article_del.
Qed.

(** After a successful delete the list of articles is read from the store
    and holds no row that answers to the deleted identifier. *)
Lemma list_after_delete_is_fresh id b t t' st :
  id <> "" ->
  snd (delete_articles id (db st)) <> 0 ->
  let st1 := snd (server (DELETE_article id b t) st) in
  fst (server (GET_articles t') st1) = Respond 200 (JRows (articles (db st1)))
  /\ forall r, r ∈ articles (db st1) -> Sql.id_eq (Article.article_id r) id = false.
Proof.
  intros Hid Hn st1. subst st1. rewrite server_GET_articles.
  rewrite server_DELETE_article by assumption. unfold delete_article.
  pose proof (delete_articles_gone id (db st)) as Hgone.
  destruct (delete_articles _ _) as [d n]. cbn [snd fst] in *.
  apply Nat.eqb_neq in Hn. rewrite Hn. cbn [snd db]. split; [reflexivity|].
  intros r Hr. apply Hgone, Hr.
Qed.

(** C3. The server on the identifier [" 1"] (the path [/api/articles/%201]):
    after start-up has cached article 1, the update succeeds and the store
    holds the new title, yet the read that follows is served the title
    cached before the update.  The update deletes the key built from the
    raw parameter, [article_0 1], while the read looks up the key built from
    the trimmed one, [article_001]. *)
Theorem padded_key_mismatch_serves_stale_article :
  let st0 := prefetchArticles 0 (mkState db1 empty_cache) in
  let st1 := snd (server (PUT_article percent20_1 (with_title "New title") 1000) st0) in
  fst (server (PUT_article percent20_1 (with_title "New title") 1000) st0)
    = Respond 200 (JMessage "Article updated successfully")
  /\ map Article.headline_title (articles (db st1)) = [Some "New title"]
  /\ JS.padStart 3 "0" percent20_1 = "0 1"
  /\ JS.padStart 3 "0" (JS.trim percent20_1) = "001"
  /\ (exists v, fst (server (GET_article percent20_1 2000) st1) = Respond 200 (JArticle v)
                /\ v_title v = "Old title")
  /\ fst (server (GET_article percent20_1 2000) st1)
     <> article_from_store percent20_1 (db st1).
Proof.
  cbv zeta. repeat split; try reflexivity.
  - eexists. split; reflexivity.
  - vm_compute. discriminate.
Qed.

(** ** C2: media of an article *)

(** C2, as the handler has it.  For a request [GET /api/media/:id] whose
    identifier is not blank: a live cached entry is answered as it is,
    mapped; otherwise the answer is 200 with the rows the store holds for
    the identifier, mapped to [{name, description, file_type, css_class,
    filepath}], and these rows are cached.  With no row in the store the
    answer is 200 with the empty array: there is no 404. *)
Theorem media_is_the_mapped_rows id t st :
  JS.trim id <> "" ->
  (forall visuals,
     get_visuals_ (JS.trim id) t (memo st) = Some visuals ->
     server (GET_media id t) st = (Respond 200 (JVisuals (mapVisualFields visuals)), st))
  /\
  (get_visuals_ (JS.trim id) t (memo st) = None ->
   let rows := select_visuals (JS.trim id) (db st) in
   server (GET_media id t) st
   = (Respond 200 (JVisuals (mapVisualFields rows)),
      mkState (db st) (set_visuals_ (JS.trim id) t rows (memo st)))
   /\ (rows = [] -> fst (server (GET_media id t) st) = Respond 200 (JVisuals []))).
Proof.
  intros Hblank.
  assert (Hid : id <> "") by (intros ->; apply Hblank; reflexivity).
  assert (Hne : String.eqb (JS.trim id) "" = false) by (now apply String.eqb_neq).
  split.
  - intros visuals Hhit. rewrite server_GET_media by assumption.
    unfold get_media. cbn [now GET_media]. rewrite Hne, Hhit. reflexivity.
  - intros Hmiss rows. rewrite server_GET_media by assumption.
    unfold get_media. cbn [now GET_media]. rewrite Hne, Hmiss. fold rows.
    split; [reflexivity|]. intros ->. reflexivity.
Qed.

Lemma media_is_the_mapped_rows_witness :
  let st := mkState empty_db empty_cache in
  server (GET_media "5" 0) st
  = (Respond 200 (JVisuals []),
     mkState empty_db (set_visuals_ "5" 0 [] empty_cache))
  /\ fst (server (GET_media "5" 0) st) = Respond 200 (JVisuals []).
Proof.
  intros st.
  destruct (media_is_the_mapped_rows "5" 0 st ltac:(discriminate)) as [_ Hmiss].
  destruct (Hmiss eq_refl) as [H1 H2]. split; [exact H1 | exact (H2 eq_refl)].
Defined.

(** C2, as stated, fails: with no media row for article 5 and nothing cached,
    the answer is not a 404. *)
Lemma media_without_rows_is_not_404 :
  let st := mkState empty_db empty_cache in
  ~ (select_visuals "5" (db st) = [] ->
     get_visuals_ "5" 0 (memo st) = None ->
     exists b, fst (server (GET_media "5" 0) st) = Respond 404 b).
Proof.
  intros st H. destruct H as [b Hb]; [reflexivity | reflexivity |].
  vm_compute in Hb. discriminate Hb.
Qed.

(** ** C6: adding a preference twice *)

Lemma insert_ignore_elem k t : k ∈ insert_ignore k t.
Proof.
  unfold insert_ignore. case_bool_decide; [assumption|].
  apply elem_of_app. right. left.
Qed.

Lemma insert_ignore_twice k t : insert_ignore k (insert_ignore k t) = insert_ignore k t.
Proof.
  unfold insert_ignore at 1. rewrite bool_decide_eq_true_2; [reflexivity|].
  apply insert_ignore_elem.
Qed.

Lemma occurrences_not_elem k t : k ∉ t -> occurrences k t = 0.
Proof.
  unfold occurrences. induction t as [|x t IH]; intros Hn; [reflexivity|].
  apply not_elem_of_cons in Hn as [Hne Hn]. rewrite filter_cons.
  rewrite decide_False by congruence. auto.
Qed.

Lemma occurrences_app k t1 t2 :
  occurrences k (t1 ++ t2) = occurrences k t1 + occurrences k t2.
Proof. unfold occurrences. rewrite filter_app, length_app. reflexivity. Qed.

Lemma occurrences_NoDup k t : NoDup t -> k ∈ t -> occurrences k t = 1.
Proof.
  induction 1 as [|x t Hx Hnd IH]; intros Hin; [inversion Hin|].
  unfold occurrences. rewrite filter_cons. destruct (decide (x = k)) as [->|Hne].
  - cbn [length]. f_equal. now apply occurrences_not_elem.
  - apply elem_of_cons in Hin as [->|Hin]; [congruence|]. now apply IH.
Qed.

Lemma insert_ignore_NoDup k t : NoDup t -> NoDup (insert_ignore k t).
Proof.
  intros Hnd. unfold insert_ignore. case_bool_decide; [assumption|].
  apply NoDup_app. repeat split; [assumption| |apply NoDup_singleton].
  intros x Hx Hx'. apply list_elem_of_singleton in Hx'. congruence.
Qed.

(** Under the unique key, an inserted pair is recorded exactly once. *)
Lemma insert_ignore_once k t : NoDup t -> occurrences k (insert_ignore k t) = 1.
Proof.
  intros Hnd. apply occurrences_NoDup;
    [now apply insert_ignore_NoDup | apply insert_ignore_elem].
Qed.

Lemma post_interests_responds : responds post_interests.
Proof. unfold responds, post_interests. responds_by_cases. Qed.
Lemma post_dislikes_responds : responds post_dislikes.
Proof. unfold responds, post_dislikes. responds_by_cases. Qed.
Lemma post_subscriptions_responds : responds post_subscriptions.
Proof. unfold responds, post_subscriptions. responds_by_cases. Qed.

Ltac route_plain Hr :=
  unfold server, routes;
  cbn [dispatch r_verb verb method_eqb r_pattern path match_path r_stack
       String.eqb Ascii.eqb Bool.eqb POST_interests POST_dislikes
       POST_subscriptions POST_read_article POST_register];
  rewrite (run_single _ _ _ _ Hr);
  match goal with
  | |- context [?h ?i ?r ?s] =>
      match type of h with handler => idtac end;
      destruct (Hr i r s) as (st0 & b0 & E);
      destruct (h i r s) as [o st']; simpl in E; subst o; reflexivity
  end.

Lemma server_POST_interests b t st :
  server (POST_interests b t) st = post_interests "" (POST_interests b t) st.
Proof. route_plain post_interests_responds. Qed.

Lemma server_POST_dislikes b t st :
  server (POST_dislikes b t) st = post_dislikes "" (POST_dislikes b t) st.
Proof. route_plain post_dislikes_responds. Qed.

Lemma server_POST_subscriptions b t st :
  server (POST_subscriptions b t) st = post_subscriptions "" (POST_subscriptions b t) st.
Proof. route_plain post_subscriptions_responds. Qed.

(** C6. Adding the same (user, topic) pair twice to interests, dislikes or
    subscriptions: both requests are answered 200 with [{success: true}], the
    second leaves the server state as the first left it, and the table, which
    holds no pair twice before, holds the pair exactly once after. *)
Theorem membership_add_is_idempotent (u : N) (s : string) (t t' : Z) (st : state) :
  u <> 0%N -> s <> "" ->
  (let add := POST_interests (interest_body u s) in
   let st1 := snd (server (add t) st) in
   fst (server (add t) st) = Respond 200 JSuccess
   /\ server (add t') st1 = (Respond 200 JSuccess, st1)
   /\ (NoDup (user_interests (db st)) ->
       occurrences (u, s) (user_interests (db (snd (server (add t') st1)))) = 1))
  /\
  (let add := POST_dislikes (topic_body u s) in
   let st1 := snd (server (add t) st) in
   fst (server (add t) st) = Respond 200 JSuccess
   /\ server (add t') st1 = (Respond 200 JSuccess, st1)
   /\ (NoDup (user_dislikes (db st)) ->
       occurrences (u, s) (user_dislikes (db (snd (server (add t') st1)))) = 1))
  /\
  (let add := POST_subscriptions (topic_body u s) in
   let st1 := snd (server (add t) st) in
   fst (server (add t) st) = Respond 200 JSuccess
   /\ server (add t') st1 = (Respond 200 JSuccess, st1)
   /\ (NoDup (user_subscriptions (db st)) ->
       occurrences (u, s) (user_subscriptions (db (snd (server (add t') st1)))) = 1)).
Proof.
  intros Hu Hs.
  assert (Tu : JS.truthy_N (Some u) = true).
  { cbn [JS.truthy_N]. apply negb_true_iff. now apply N.eqb_neq. }
  assert (Ts : JS.truthy_str (Some s) = true).
  { cbn [JS.truthy_str]. apply negb_true_iff. now apply String.eqb_neq. }
  cbv zeta. repeat apply conj.
  all: rewrite ?server_POST_interests, ?server_POST_dislikes,
         ?server_POST_subscriptions;
       unfold post_interests, post_dislikes, post_subscriptions;
       cbn [payload POST_interests POST_dislikes POST_subscriptions
            interest_body topic_body userId interest topic];
       rewrite ?Tu, ?Ts; cbn [negb orb fst snd db memo from_option
            with_user_interests with_user_dislikes with_user_subscriptions
            user_interests user_dislikes user_subscriptions];
       rewrite ?insert_ignore_twice; try reflexivity.
  all: intros Hnd; now apply insert_ignore_once.
Qed.

Lemma membership_add_is_idempotent_witness :
  let st := mkState db1 empty_cache in
  let st1 := snd (server (POST_interests (interest_body 2 "sports") 0) st) in
  server (POST_interests (interest_body 2 "sports") 1) st1 = (Respond 200 JSuccess, st1)
  /\ occurrences (2%N, "sports")
       (user_interests (db (snd (server (POST_interests (interest_body 2 "sports") 1) st1))))
     = 1.
Proof.
  intros st st1.
  destruct (membership_add_is_idempotent 2 "sports" 0 1 st
              ltac:(discriminate) ltac:(discriminate)) as [(_ & H2 & H3) _].
  split; [exact H2 | apply H3; constructor].
Defined.

(** ** C5: the engagement counter *)

Lemma upsert_read_same k m :
  upsert_read k m !! k = Some (default 0%N (m !! k) + 1)%N.
Proof.
  unfold upsert_read. destruct (m !! k) as [c|] eqn:E;
    rewrite lookup_insert_eq; reflexivity.
Qed.

Lemma upsert_read_other k k' m : k <> k' -> upsert_read k m !! k' = m !! k'.
Proof.
  intros Hne. unfold upsert_read. destruct (m !! k); now rewrite lookup_insert_ne.
Qed.

(** One turn of the loop, spelled out. *)
Lemma read_keyword_reads u kw d :
  user_keyword_reads (read_keyword u kw d)
  = upsert_read (u, kw) (user_keyword_reads d).
Proof.
  unfold read_keyword. cbn [with_user_keyword_reads user_keyword_reads].
  rewrite upsert_read_same. destruct (_ =? 3)%N; reflexivity.
Qed.

Lemma read_keyword_interests u kw d :
  user_interests (read_keyword u kw d)
  = if (counter (u, kw) (read_keyword u kw d) =? 3)%N
    then insert_ignore (u, kw) (user_interests d)
    else user_interests d.
Proof.
  unfold counter. rewrite read_keyword_reads, upsert_read_same. cbn [from_option].
  unfold read_keyword. cbn [with_user_keyword_reads user_keyword_reads].
  rewrite upsert_read_same. destruct (_ =? 3)%N; reflexivity.
Qed.

Lemma read_keyword_counter_same u kw d :
  counter (u, kw) (read_keyword u kw d) = (counter (u, kw) d + 1)%N.
Proof. unfold counter. now rewrite read_keyword_reads, upsert_read_same. Qed.

Lemma read_keyword_counter_other u kw k d :
  kw <> k -> counter (u, k) (read_keyword u kw d) = counter (u, k) d.
Proof.
  intros Hne. unfold counter. rewrite read_keyword_reads, upsert_read_other;
    [reflexivity | congruence].
Qed.

Lemma occurrences_insert_ignore_same k t :
  occurrences k (insert_ignore k t) = Nat.max 1 (occurrences k t).
Proof.
  unfold insert_ignore. case_bool_decide as Hin.
  - assert (0 < occurrences k t); [|lia].
    unfold occurrences. induction t as [|x t IH]; [inversion Hin|].
    rewrite filter_cons. destruct (decide (x = k)); cbn [length]; [lia|].
    apply IH. apply elem_of_cons in Hin as [->|]; [congruence|assumption].
  - rewrite occurrences_app, (occurrences_not_elem _ _ Hin).
    unfold occurrences. rewrite filter_cons, decide_True by reflexivity.
    reflexivity.
Qed.

Lemma occurrences_insert_ignore_other k k' t :
  k' <> k -> occurrences k (insert_ignore k' t) = occurrences k t.
Proof.
  intros Hne. unfold insert_ignore. case_bool_decide; [reflexivity|].
  rewrite occurrences_app. unfold occurrences at 2.
  rewrite filter_cons, decide_False by assumption. cbn. lia.
Qed.

(** An event with any list of keywords: the counter of a keyword grows by
    the number of its occurrences, and the pair is inserted, unless already
    there, exactly when one of the counts read is 3. *)
Lemma times_cons k kw ks :
  times k (kw :: ks) = if decide (kw = k) then S (times k ks) else times k ks.
Proof. unfold times. rewrite filter_cons. destruct (decide _); reflexivity. Qed.

Ltac cases_on_comparisons :=
  repeat match goal with
         | |- context [(?a <? ?b)%N] =>
             let E := fresh in
             destruct (a <? b)%N eqn:E;
             [apply N.ltb_lt in E | apply N.ltb_ge in E]
         | |- context [(?a <=? ?b)%N] =>
             let E := fresh in
             destruct (a <=? b)%N eqn:E;
             [apply N.leb_le in E | apply N.leb_gt in E]
         end.

Lemma read_keywords_spec u k ks d :
  counter (u, k) (read_keywords u ks d)
  = (counter (u, k) d + N.of_nat (times k ks))%N
  /\ occurrences (u, k) (user_interests (read_keywords u ks d))
     = if reaches_three (counter (u, k) d) (times k ks)
       then Nat.max 1 (occurrences (u, k) (user_interests d))
       else occurrences (u, k) (user_interests d).
Proof.
  unfold read_keywords. revert d. induction ks as [|kw ks IH]; intros d.
  - cbn [fold_left]. change (times k []) with 0%nat. unfold reaches_three.
    cbn [N.of_nat]. split; [lia|].
    cases_on_comparisons; cbn [andb]; try reflexivity; lia.
  - cbn [fold_left]. destruct (IH (read_keyword u kw d)) as [IHc IHo].
    rewrite IHc, IHo. clear IHc IHo IH. rewrite times_cons.
    destruct (decide (kw = k)) as [->|Hne].
    + rewrite read_keyword_counter_same, read_keyword_interests,
        read_keyword_counter_same.
      split; [lia|]. unfold reaches_three.
      destruct (_ =? 3)%N eqn:E3;
        [apply N.eqb_eq in E3; rewrite occurrences_insert_ignore_same
        |apply N.eqb_neq in E3];
        cases_on_comparisons; cbn [andb]; try reflexivity; lia.
    + rewrite read_keyword_counter_other by assumption.
      rewrite read_keyword_interests. split; [reflexivity|].
      destruct (_ =? 3)%N; [|reflexivity].
      rewrite occurrences_insert_ignore_other by congruence. reflexivity.
Qed.

Lemma read_article_responds : responds read_article.
Proof. unfold responds, read_article. responds_by_cases. Qed.

Lemma server_POST_read_article b t st :
  server (POST_read_article b t) st = read_article "" (POST_read_article b t) st.
Proof. route_plain read_article_responds. Qed.

(** A well-formed event runs the loop on the store. *)
Lemma read_event u aid ks t st :
  u <> 0%N -> aid <> "" ->
  server (POST_read_article (read_body u aid ks) t) st
  = (Respond 200 JSuccess, mkState (read_keywords u ks (db st)) (memo st)).
Proof.
  intros Hu Ha. rewrite server_POST_read_article. unfold read_article.
  cbn [payload POST_read_article read_body keywords userId articleId
       JS.truthy_N JS.truthy_str from_option].
  apply N.eqb_neq in Hu. apply String.eqb_neq in Ha. rewrite Hu, Ha.
  reflexivity.
Qed.

(** C5. A read-article event that carries a keyword once adds one to the
    (user, keyword) counter, creating it at 1 when absent, and the interest
    table after the event is the table before it with the pair inserted
    (unless already there) exactly when the counter just read is 3.  Hence,
    starting without counter and without the interest, three separate events
    record the interest once, the first two do not record it, and a fourth
    leaves it recorded once. *)
Theorem keyword_promoted_at_exactly_three (u : N) (aid k : string) :
  u <> 0%N -> aid <> "" ->
  (forall t st,
     let st' := snd (server (POST_read_article (read_body u aid [k]) t) st) in
     fst (server (POST_read_article (read_body u aid [k]) t) st) = Respond 200 JSuccess
     /\ user_keyword_reads (db st') !! (u, k) = Some (counter (u, k) (db st) + 1)%N
     /\ (user_keyword_reads (db st) !! (u, k) = None ->
         user_keyword_reads (db st') !! (u, k) = Some 1%N)
     /\ user_interests (db st')
        = if (counter (u, k) (db st') =? 3)%N
          then insert_ignore (u, k) (user_interests (db st))
          else user_interests (db st))
  /\
  (forall ks1 ks2 ks3 ks4 t1 t2 t3 t4 st,
     times k ks1 = 1 -> times k ks2 = 1 -> times k ks3 = 1 -> times k ks4 = 1 ->
     user_keyword_reads (db st) !! (u, k) = None ->
     (u, k) ∉ user_interests (db st) ->
     let event ks t := POST_read_article (read_body u aid ks) t in
     let s1 := snd (server (event ks1 t1) st) in
     let s2 := snd (server (event ks2 t2) s1) in
     let s3 := snd (server (event ks3 t3) s2) in
     let s4 := snd (server (event ks4 t4) s3) in
     occurrences (u, k) (user_interests (db s1)) = 0
     /\ occurrences (u, k) (user_interests (db s2)) = 0
     /\ occurrences (u, k) (user_interests (db s3)) = 1
     /\ occurrences (u, k) (user_interests (db s4)) = 1
     /\ counter (u, k) (db s3) = 3%N
     /\ counter (u, k) (db s4) = 4%N).
Proof.
  intros Hu Ha. split.
  - intros t st st'. subst st'. rewrite (read_event u aid [k] t st Hu Ha).
    cbn [fst snd db read_keywords fold_left].
    rewrite read_keyword_interests, read_keyword_reads, upsert_read_same.
    repeat split. intros ->. reflexivity.
  - intros ks1 ks2 ks3 ks4 t1 t2 t3 t4 st H1 H2 H3 H4 Hc Hi event s1 s2 s3 s4.
    subst s4 s3 s2 s1 event. cbv beta.
    rewrite !read_event by assumption. cbn [snd db].
    pose proof (read_keywords_spec u k ks1 (db st)) as [C1 O1].
    set (d1 := read_keywords u ks1 (db st)) in *.
    pose proof (read_keywords_spec u k ks2 d1) as [C2 O2].
    set (d2 := read_keywords u ks2 d1) in *.
    pose proof (read_keywords_spec u k ks3 d2) as [C3 O3].
    set (d3 := read_keywords u ks3 d2) in *.
    pose proof (read_keywords_spec u k ks4 d3) as [C4 O4].
    set (d4 := read_keywords u ks4 d3) in *.
    assert (C0 : counter (u, k) (db st) = 0%N) by (unfold counter; now rewrite Hc).
    pose proof (occurrences_not_elem _ _ Hi) as O0.
    assert (C1' : counter (u, k) d1 = 1%N) by (rewrite C1, H1, C0; reflexivity).
    assert (O1' : occurrences (u, k) (user_interests d1) = 0)
      by (rewrite O1, H1, C0, O0; reflexivity).
    assert (C2' : counter (u, k) d2 = 2%N) by (rewrite C2, H2, C1'; reflexivity).
    assert (O2' : occurrences (u, k) (user_interests d2) = 0)
      by (rewrite O2, H2, C1', O1'; reflexivity).
    assert (C3' : counter (u, k) d3 = 3%N) by (rewrite C3, H3, C2'; reflexivity).
    assert (O3' : occurrences (u, k) (user_interests d3) = 1)
      by (rewrite O3, H3, C2', O2'; reflexivity).
    assert (C4' : counter (u, k) d4 = 4%N) by (rewrite C4, H4, C3'; reflexivity).
    assert (O4' : occurrences (u, k) (user_interests d4) = 1)
      by (rewrite O4, H4, C3', O3'; reflexivity).
    repeat split; assumption.
Qed.

Lemma keyword_promoted_at_exactly_three_witness :
  let event t := POST_read_article (read_body 2 "001" ["rust"]) t in
  let st := mkState db1 empty_cache in
  let s1 := snd (server (event 1%Z) st) in
  let s2 := snd (server (event 2%Z) s1) in
  let s3 := snd (server (event 3%Z) s2) in
  let s4 := snd (server (event 4%Z) s3) in
  occurrences (2%N, "rust") (user_interests (db s1)) = 0
  /\ occurrences (2%N, "rust") (user_interests (db s2)) = 0
  /\ occurrences (2%N, "rust") (user_interests (db s3)) = 1
  /\ occurrences (2%N, "rust") (user_interests (db s4)) = 1
  /\ counter (2%N, "rust") (db s3) = 3%N
  /\ counter (2%N, "rust") (db s4) = 4%N.
Proof.
  intros event st.
  destruct (keyword_promoted_at_exactly_three 2 "001" "rust"
              ltac:(discriminate) ltac:(discriminate)) as [_ H].
  apply (H ["rust"] ["rust"] ["rust"] ["rust"] 1 2 3 4 st)%Z;
    try reflexivity.
  cbn. apply not_elem_of_nil.
Defined.

(** ** C7: likes never go below zero *)

Lemma post_like_responds : responds post_like.
Proof.
  intros id req st. unfold post_like. destruct (_ || _); [cbn; eauto|].
  destruct (select_articles _ _); cbn [fst]; eauto.
Qed.

Lemma server_like_route id req st :
  verb req = POST -> path req = ["api"; "articles"; id; "like"] ->
  server req st = if String.eqb id "" then (Next, st) else post_like id req st.
Proof.
  intros Hv Hp. destruct req as [v p q b t]. cbn [verb path] in Hv, Hp. subst v p.
  unfold server, routes.
  cbn [dispatch r_verb verb method_eqb r_pattern path match_path r_stack
       String.eqb Ascii.eqb Bool.eqb].
  destruct id as [|c id]; [reflexivity|]. cbn [String.eqb].
  rewrite (run_single _ _ _ _ post_like_responds).
  match goal with
  | |- context [post_like ?i ?r ?s] =>
      destruct (post_like_responds i r s) as (s0 & b0 & E);
      destruct (post_like i r s) as [o st']; simpl in E; subst o; reflexivity
  end.
Qed.

Lemma select_after_set_likes p n d :
  select_articles p (fst (update_articles p (Article.set_likes n) d))
  = map (Article.set_likes n) (select_articles p d).
Proof.
  unfold update_articles, select_articles. cbn [fst with_articles articles].
  induction (articles d) as [|r l IH]; [reflexivity|].
  cbn [map]. rewrite !filter_cons.
  destruct (Sql.id_eq (Article.article_id r) p) eqn:E.
  - rewrite decide_True by (cbn; exact E). rewrite decide_True by reflexivity.
    cbn [map]. now rewrite IH.
  - rewrite decide_False by (rewrite E; discriminate).
    rewrite decide_False by discriminate. exact IH.
Qed.

Lemma parse_likes_set n r : parse_likes (Article.likes (Article.set_likes n r)) = n.
Proof.
  unfold parse_likes. cbn. destruct (n =? 0)%Z eqn:E; [|reflexivity].
  apply Z.eqb_eq in E. now subst.
Qed.

Lemma update_likes_nonneg p n d :
  (0 <= n)%Z -> likes_nonneg d ->
  likes_nonneg (fst (update_articles p (Article.set_likes n) d)).
Proof.
  intros Hn Hd r Hr. unfold update_articles in Hr.
  cbn [fst with_articles articles] in Hr.
  apply list_elem_of_fmap in Hr as (r0 & -> & Hr0).
  destruct (Sql.id_eq _ _); [now rewrite parse_likes_set | now apply Hd].
Qed.

(** The count a like or unlike writes is never negative. *)
Lemma post_like_keeps_nonneg id req st :
  likes_nonneg (db st) -> likes_nonneg (db (snd (post_like id req st))).
Proof.
  intros Hd. unfold post_like. destruct (_ || _); [exact Hd|].
  destruct (select_articles _ _) as [|row rows] eqn:Hs; [exact Hd|].
  cbn [snd db]. apply update_likes_nonneg; [|exact Hd].
  assert (Hrow : (0 <= parse_likes (Article.likes row))%Z).
  { apply Hd. assert (Hin : row ∈ row :: rows) by left. rewrite <- Hs in Hin.
    unfold select_articles in Hin. apply list_elem_of_filter in Hin. tauto. }
  destruct (String.eqb _ "like"); [lia|].
  destruct (String.eqb _ "unlike"); cbn [andb]; [|lia].
  destruct (0 <? _)%Z eqn:E; [apply Z.ltb_lt in E|]; lia.
Qed.

Lemma like_request_keeps_nonneg req st :
  is_like_request req -> likes_nonneg (db st) ->
  likes_nonneg (db (snd (server req st))).
Proof.
  intros (id & Hv & Hp) Hd. rewrite (server_like_route id req st Hv Hp).
  destruct (String.eqb id ""); [exact Hd | now apply post_like_keeps_nonneg].
Qed.

(** C7. Likes and unlikes keep every stored like count at or above zero,
    whatever their number and order; an unlike on an article whose count is 0
    answers 0 and stores 0, and a like answers and stores the count plus
    one. *)
Theorem like_count_never_negative :
  (forall reqs st,
     Forall is_like_request reqs -> likes_nonneg (db st) ->
     likes_nonneg (db (run reqs st)))
  /\
  (forall id t st row rows,
     id <> "" ->
     select_articles (JS.padStart 3 "0" (JS.trim id)) (db st) = row :: rows ->
     let count := parse_likes (Article.likes row) in
     (count = 0%Z ->
      let st' := snd (server (POST_like id (action_body "unlike") t) st) in
      fst (server (POST_like id (action_body "unlike") t) st) = Respond 200 (JLikes 0)
      /\ forall r, r ∈ select_articles (JS.padStart 3 "0" (JS.trim id)) (db st') ->
                   Article.likes r = Some 0%Z)
     /\
     (let st' := snd (server (POST_like id (action_body "like") t) st) in
      fst (server (POST_like id (action_body "like") t) st)
        = Respond 200 (JLikes (count + 1))
      /\ forall r, r ∈ select_articles (JS.padStart 3 "0" (JS.trim id)) (db st') ->
                   Article.likes r = Some (count + 1)%Z)).
Proof.
  split.
  - intros reqs. induction reqs as [|r reqs IH]; intros st Hall Hd; [exact Hd|].
    inversion Hall as [|? ? Hr Hrest]; subst. unfold run. cbn [fold_left].
    apply IH; [exact Hrest | now apply like_request_keeps_nonneg].
  - intros id t st row rows Hid Hs count.
    assert (Hroute : forall a,
      server (POST_like id (action_body a) t) st
      = post_like id (POST_like id (action_body a) t) st).
    { intros a. rewrite (server_like_route id) by reflexivity.
      apply String.eqb_neq in Hid. now rewrite Hid. }
    assert (Hpad : String.eqb (JS.padStart 3 "0" (JS.trim id)) "" = false).
    { unfold JS.padStart. destruct (JS.trim id) as [|c1 [|c2 [|c3 s]]]; reflexivity. }
    split.
    + intros H0 st'. subst st'. rewrite Hroute. unfold post_like.
      cbn [payload POST_like action_body action]. rewrite Hpad, Hs.
      cbn [String.eqb Ascii.eqb Bool.eqb orb andb negb from_option].
      fold count. rewrite H0. cbn [Z.ltb Z.compare fst snd db].
      split; [reflexivity|]. intros r Hr. rewrite select_after_set_likes in Hr.
      apply list_elem_of_fmap in Hr as (r0 & -> & _). reflexivity.
    + intros st'. subst st'. rewrite Hroute. unfold post_like.
      cbn [payload POST_like action_body action]. rewrite Hpad, Hs.
      cbn [String.eqb Ascii.eqb Bool.eqb orb andb negb from_option].
      fold count. cbn [fst snd db].
      split; [reflexivity|]. intros r Hr. rewrite select_after_set_likes in Hr.
      apply list_elem_of_fmap in Hr as (r0 & -> & _). reflexivity.
Qed.

Lemma like_count_never_negative_witness :
  let st := mkState db1 empty_cache in
  likes_nonneg
    (db (run [POST_like "1" (action_body "unlike") 1;
              POST_like "1" (action_body "like") 2;
              POST_like "1" (action_body "unlike") 3;
              POST_like "1" (action_body "unlike") 4] st))
  /\ fst (server (POST_like "1" (action_body "unlike") 1) st) = Respond 200 (JLikes 0)
  /\ fst (server (POST_like "1" (action_body "like") 1) st) = Respond 200 (JLikes 1).
Proof.
  intros st. destruct like_count_never_negative as [Hinv Hstep].
  split; [|split].
  - apply Hinv.
    + repeat constructor; eexists; split; reflexivity.
    + intros r Hr. apply list_elem_of_singleton in Hr. subst r. vm_compute.
      discriminate.
  - destruct (Hstep "1" 1%Z st article1 [] ltac:(discriminate) eq_refl) as [Hu _].
    apply (Hu eq_refl).
  - destruct (Hstep "1" 1%Z st article1 [] ltac:(discriminate) eq_refl) as [_ Hl].
    apply Hl.
Defined.

(** ** Registration: C8, C9 and C10 *)

Lemma register_responds : responds register.
Proof.
  intros id req st. unfold register.
  destruct (negb (all_fields_present _)); [cbn; eauto|].
  destruct (negb (Password.passwordRegex _)); [cbn; eauto|].
  destruct (Nat.ltb _ _); cbn [fst]; eauto.
Qed.

Lemma server_POST_register b t st :
  server (POST_register b t) st = register "" (POST_register b t) st.
Proof. route_plain register_responds. Qed.

Lemma all_chars_false cls s c :
  c ∈ chars s -> cls c = false -> Password.all_chars cls s = false.
Proof.
  induction s as [|a s IH]; cbn [chars Password.all_chars]; intros Hin Hc.
  - inversion Hin.
  - apply elem_of_cons in Hin as [<-|Hin]; [now rewrite Hc|].
    rewrite (IH Hin Hc). apply andb_false_r.
Qed.

(** C10. A registration whose password holds a character outside the
    letters, the digits and [@$!%*?&] is answered 400 and changes nothing,
    whatever else the password holds. *)
Theorem password_outside_class_is_rejected b t st pw c :
  password b = Some pw -> c ∈ chars pw -> Password.allowed c = false ->
  exists e, server (POST_register b t) st = (Respond 400 (JError e), st).
Proof.
  intros Hpw Hin Hc. rewrite server_POST_register. unfold register.
  cbn [payload POST_register].
  destruct (negb (all_fields_present b)); [eauto|].
  rewrite Hpw. change (default "" (Some pw)) with pw.
  unfold Password.passwordRegex.
  rewrite (all_chars_false _ _ _ Hin Hc).
  rewrite andb_false_r. cbn [andb negb]. eauto.
Qed.

Lemma password_outside_class_is_rejected_witness :
  Password.lookahead JS.is_lower "Abcdef1!#" = true
  /\ Password.lookahead JS.is_upper "Abcdef1!#" = true
  /\ Password.lookahead JS.is_digit "Abcdef1!#" = true
  /\ Password.lookahead Password.is_symbol "Abcdef1!#" = true
  /\ 8 <= String.length "Abcdef1!#"
  /\ exists e,
       server (POST_register (registration "carol" "c@x.com" "Abcdef1!#") 0)
              (mkState empty_db empty_cache)
       = (Respond 400 (JError e), mkState empty_db empty_cache).
Proof.
  do 4 (split; [reflexivity|]). split; [cbn; lia|].
  apply (password_outside_class_is_rejected _ 0%Z _ "Abcdef1!#" "#"%char);
    [reflexivity | | reflexivity].
  cbn [chars]. repeat first [apply list_elem_of_here | apply list_elem_of_further].
Defined.

(** A complete request with an accepted password and no colliding user is
    answered 201 and stored. *)
Lemma register_succeeds b t st :
  all_fields_present b = true ->
  Password.passwordRegex (default "" (password b)) = true ->
  select_existing (JS.toLowerCase (default "" (username b)))
                  (JS.toLowerCase (default "" (email b))) (db st) = [] ->
  exists row,
    server (POST_register b t) st
    = (Respond 201 (JRegistered "User registered successfully"
                                (users_auto_increment (db st)) (User.role row)),
       mkState (with_users (users (db st) ++ [row])
                           (users_auto_increment (db st) + 1)%N (db st))
               (memo st))
    /\ User.username row = default "" (username b)
    /\ User.email row = JS.toLowerCase (default "" (email b)).
Proof.
  intros Hf Hp He. rewrite server_POST_register. unfold register.
  cbn [payload POST_register]. rewrite Hf, Hp, He. cbn [negb length Nat.ltb Nat.leb].
  eexists (User.mk _ _ _ _ _ _ _ _ _). cbn [User.role User.username User.email].
  split; [reflexivity|]. split; reflexivity.
Qed.

(** C8. A registration answered 201 appends one user row; its role, which
    the response repeats, is [admin] when the user table was empty and
    [user] when it held at least one user. *)
Theorem first_user_is_admin b t st msg uid role st' :
  server (POST_register b t) st = (Respond 201 (JRegistered msg uid role), st') ->
  exists row,
    users (db st') = users (db st) ++ [row]
    /\ User.role row = role
    /\ (users (db st) = [] -> role = "admin")
    /\ (users (db st) <> [] -> role = "user").
Proof.
  rewrite server_POST_register. unfold register. cbn [payload POST_register].
  destruct (negb (all_fields_present b)); [discriminate|].
  destruct (negb (Password.passwordRegex _)); [discriminate|].
  destruct (Nat.ltb _ _); [discriminate|].
  intros H. injection H as _ _ Hrole Hst. subst st' role.
  cbn [db with_users users]. eexists. split; [reflexivity|].
  cbn [User.role]. split; [reflexivity|].
  destruct (users (db st)) as [|u us]; cbn [length Nat.eqb]; split; congruence.
Qed.

Lemma first_user_is_admin_witness :
  let alice := registration "alice" "A@X.COM" "Secret1!" in
  let carol := registration "carol" "c@x.com" "Secret1!" in
  let st0 := mkState empty_db empty_cache in
  let st1 := snd (server (POST_register alice 0) st0) in
  let st2 := snd (server (POST_register carol 1) st1) in
  fst (server (POST_register alice 0) st0)
    = Respond 201 (JRegistered "User registered successfully" 1 "admin")
  /\ fst (server (POST_register carol 1) st1)
     = Respond 201 (JRegistered "User registered successfully" 2 "user")
  /\ (exists row, users (db st1) = users (db st0) ++ [row] /\ User.role row = "admin")
  /\ (exists row, users (db st2) = users (db st1) ++ [row] /\ User.role row = "user").
Proof.
  intros alice carol st0 st1 st2.
  split; [reflexivity|]. split; [reflexivity|]. split.
  - destruct (first_user_is_admin alice 0%Z st0 _ _ _ st1 eq_refl)
      as (row & Hu & Hr & _). exists row. split; assumption.
  - destruct (first_user_is_admin carol 1%Z st1 _ _ _ st2 eq_refl)
      as (row & Hu & Hr & _). exists row. split; assumption.
Defined.

(** ** C9: duplicate user names and addresses *)

Lemma existsb_username uname mail d :
  existsb (fun u => String.eqb (JS.toLowerCase (User.username u)) (JS.toLowerCase uname))
          (select_existing (JS.toLowerCase uname) (JS.toLowerCase mail) d) = true
  <-> exists u, u ∈ users d /\ same_username uname u.
Proof.
  rewrite existsb_exists. unfold select_existing, same_username. split.
  - intros (u & Hin & He). apply list_elem_of_In, list_elem_of_filter in Hin.
    apply String.eqb_eq in He. exists u. tauto.
  - intros (u & Hin & He). exists u. split; [|now apply String.eqb_eq].
    apply list_elem_of_In, list_elem_of_filter. split; [|assumption].
    apply orb_true_iff. left. now apply String.eqb_eq.
Qed.

Lemma existsb_email uname mail d :
  existsb (fun u => String.eqb (JS.toLowerCase (User.email u)) (JS.toLowerCase mail))
          (select_existing (JS.toLowerCase uname) (JS.toLowerCase mail) d) = true
  <-> exists u, u ∈ users d /\ same_email mail u.
Proof.
  rewrite existsb_exists. unfold select_existing, same_email. split.
  - intros (u & Hin & He). apply list_elem_of_In, list_elem_of_filter in Hin.
    apply String.eqb_eq in He. exists u. tauto.
  - intros (u & Hin & He). exists u. split; [|now apply String.eqb_eq].
    apply list_elem_of_In, list_elem_of_filter. split; [|assumption].
    apply orb_true_iff. right. now apply String.eqb_eq.
Qed.

(** C9, as the handler has it.  A registration that supplies every required
    field and a password the strength check accepts, and whose user name or
    address equals a stored one up to letter case, is answered 400 with
    [{error, usernameExists, emailExists}]; [usernameExists] is true exactly
    when the name collides, [emailExists] exactly when the address collides,
    and the state is unchanged. *)
Theorem duplicate_registration_is_rejected b t st uname mail :
  all_fields_present b = true ->
  Password.passwordRegex (default "" (password b)) = true ->
  username b = Some uname -> email b = Some mail ->
  (exists u, u ∈ users (db st) /\ (same_username uname u \/ same_email mail u)) ->
  exists e usernameExists emailExists,
    server (POST_register b t) st
    = (Respond 400 (JDuplicate e usernameExists emailExists), st)
    /\ (usernameExists = true <-> exists u, u ∈ users (db st) /\ same_username uname u)
    /\ (emailExists = true <-> exists u, u ∈ users (db st) /\ same_email mail u)
    /\ e = (if usernameExists then "Username already exists" else "Email already exists").
Proof.
  intros Hf Hp Hu Hm (u & Hin & Hcol).
  rewrite server_POST_register. unfold register. cbn [payload POST_register].
  rewrite Hf, Hp, Hu, Hm. change (default "" (Some uname)) with uname.
  change (default "" (Some mail)) with mail. cbn [negb].
  assert (Hex : u ∈ select_existing (JS.toLowerCase uname) (JS.toLowerCase mail) (db st)).
  { apply list_elem_of_filter. split; [|assumption]. apply orb_true_iff.
    destruct Hcol as [H|H]; [left|right]; now apply String.eqb_eq. }
  destruct (select_existing _ _ _) as [|x xs] eqn:Hsel; [inversion Hex|].
  cbn [length Nat.ltb Nat.leb]. rewrite <- Hsel.
  do 3 eexists. split; [reflexivity|].
  split; [apply existsb_username|]. split; [apply existsb_email|reflexivity].
Qed.

Lemma duplicate_registration_is_rejected_witness :
  let st := snd (server (POST_register (registration "alice" "A@X.COM" "Secret1!") 0)
                        (mkState empty_db empty_cache)) in
  exists e usernameExists emailExists,
    server (POST_register (registration "Alice" "a@x.com" "Secret1!") 1) st
    = (Respond 400 (JDuplicate e usernameExists emailExists), st)
    /\ (usernameExists = true <->
        exists u, u ∈ users (db st) /\ same_username "Alice" u)
    /\ (emailExists = true <->
        exists u, u ∈ users (db st) /\ same_email "a@x.com" u)
    /\ e = (if usernameExists then "Username already exists" else "Email already exists").
Proof.
  intros st.
  apply (duplicate_registration_is_rejected
           (registration "Alice" "a@x.com" "Secret1!") 1%Z st "Alice" "a@x.com");
    try reflexivity.
  eexists. split; [left | left; reflexivity].
Defined.

(** C9, as stated, fails: bob is stored and a request for the name [Bob]
    with a password the strength check refuses is answered without the
    [usernameExists] and [emailExists] fields. *)
Lemma duplicate_with_weak_password_has_no_flags :
  let st := mkState db1 empty_cache in
  let b := registration "Bob" "new@x.com" "weak" in
  ~ ((exists u, u ∈ users (db st) /\ same_username "Bob" u) ->
     exists e usernameExists emailExists,
       fst (server (POST_register b 0) st)
       = Respond 400 (JDuplicate e usernameExists emailExists)).
Proof.
  intros st b H. destruct H as (e & ue & ee & H).
  - exists bob. split; [left | reflexivity].
  - vm_compute in H. discriminate H.
Qed.
